(** * The batch plan of [improve-batch-process.py]

    The script is written to read the sentence count of a chapter file and
    to print how many full batches of [batch_size] sentences it splits
    into, and how many sentences are left for the final batch.  This file
    embeds the statements that compute (lines 31-32 and line 49) and
    proves what their arithmetic does for every pair of Python integers,
    including the ones the script never checks for: a zero or negative
    batch size and a negative sentence count.  It also embeds what the
    interpreter makes of the file as a whole, which line 37 decides. *)

From Stdlib Require Import ZArith QArith Qround Lia Ascii String.
From stdpp Require Import base option list strings gmap.

Open Scope Z_scope.

(** ** Exceptions and results *)

(** The exception classes the statements of the script can raise.  Python
    reports a malformed JSON text as [json.JSONDecodeError], a subclass of
    [ValueError], and a missing file as a subclass of [OSError]: both are
    read here as their built-in base class.  Reading a local variable that
    is not bound raises a subclass of [NameError]. *)
Inductive exn : Type :=
| ZeroDivisionError
| ValueError
| TypeError
| KeyError
| IndexError
| OSError
| SystemExit (code : Z)
| NameError.

(** A statement either yields a value or raises. *)
Inductive result (A : Type) : Type :=
| Return (a : A)
| Raise (e : exn).
Arguments Return {A} a.
Arguments Raise {A} e.

#[global] Instance result_ret : MRet result := λ A, @Return A.
#[global] Instance result_bind : MBind result := λ A B f r,
  match r with
  | Return a => f a
  | Raise e => Raise e
  end.

(** ** Integer arithmetic *)

(** Python's [a // b] on [int]: the floor of the quotient, and
    [ZeroDivisionError] when [b] is zero.  Python integers are unbounded,
    so they are [Z]. *)
Definition py_floordiv (a b : Z) : result Z :=
  if decide (b = 0) then Raise ZeroDivisionError else Return (a / b).

(** Python's [a % b] on [int]: the remainder of the floor division, which
    has the sign of [b]; [ZeroDivisionError] when [b] is zero. *)
Definition py_mod (a b : Z) : result Z :=
  if decide (b = 0) then Raise ZeroDivisionError else Return (a mod b).

(** ** The batching arithmetic (lines 31-32)

<<
    full_batches = total_sentences // batch_size
    remainder = total_sentences % batch_size
>>
    The pair of the two locals is what the specification calls the plan:
    [fullBatchCount] and [remainder]. *)
Definition calculate_batching (total_sentences batch_size : Z) : result (Z * Z) :=
  full_batches ← py_floordiv total_sentences batch_size;
  remainder ← py_mod total_sentences batch_size;
  mret (full_batches, remainder).

(** ** The vocabulary of the specification *)

(** The specification has a single error kind, [InvalidArgument], for a
    rejected argument.  Python's built-in exception for an argument of the
    right type and a wrong value is [ValueError]; the script defines no
    exception class of its own. *)
Definition InvalidArgument : exn := ValueError.

Definition fails_with {A} (r : result A) (e : exn) : Prop := r = Raise e.

Definition returns {A} (r : result A) : Prop := ∃ a, r = Return a.

(** floor(a / b), said with the rational quotient. *)
Definition floor_of_quotient (a b : Z) : Z :=
  Qfloor (inject_Z a / inject_Z b).

(** [r] is [a] modulo [b] for a positive modulus: the one representative
    of the class of [a] in [0, b). *)
Definition is_modulo (a b r : Z) : Prop :=
  0 ≤ r < b ∧ (b | a - r).

(** ** Lines 31-32 as statements on the local variables

    The two lines are assignments: each reads the locals
    [total_sentences] and [batch_size], computes, and binds a third
    name.  The local variables that hold integers are a finite map from
    names to [Z]. *)

(** Reading a local variable: [NameError] when the name is not bound. *)
Definition load_name (x : string) (locals : gmap string Z) : result Z :=
  match locals !! x with
  | Some v => Return v
  | None => Raise NameError
  end.

(** [x = e]: evaluate [e], then bind [x]; when [e] raises, nothing is
    bound. *)
Definition assign (x : string) (e : gmap string Z → result Z)
    (locals : gmap string Z) : gmap string Z * result unit :=
  match e locals with
  | Return v => (<[x := v]> locals, Return ())
  | Raise ex => (locals, Raise ex)
  end.

(** One statement after another: the second runs where the first left
    off, and not at all when the first raised. *)
Definition then_ (s1 s2 : gmap string Z → gmap string Z * result unit)
    (locals : gmap string Z) : gmap string Z * result unit :=
  match s1 locals with
  | (locals', Return _) => s2 locals'
  | (locals', Raise ex) => (locals', Raise ex)
  end.

(** [full_batches = total_sentences // batch_size] *)
Definition line_31 : gmap string Z → gmap string Z * result unit :=
  assign "full_batches"
    (λ locals,
       a ← load_name "total_sentences" locals;
       b ← load_name "batch_size" locals;
       py_floordiv a b).

(** [remainder = total_sentences % batch_size] *)
Definition line_32 : gmap string Z → gmap string Z * result unit :=
  assign "remainder"
    (λ locals,
       a ← load_name "total_sentences" locals;
       b ← load_name "batch_size" locals;
       py_mod a b).

Definition lines_31_32 : gmap string Z → gmap string Z * result unit :=
  then_ line_31 line_32.

(** ** The batch size on the command line (line 49) *)

(** [l[i]] on a list, for an index that is not negative. *)
Definition py_getitem {A} (l : list A) (i : nat) : result A :=
  match l !! i with
  | Some a => Return a
  | None => Raise IndexError
  end.

Section CommandLine.

(** Python's [int] on a [str]: the integer a numeral denotes, and no
    integer for a text that is no numeral, where Python raises
    [ValueError]. *)
Variable int : string → option Z.

Definition py_int (s : string) : result Z :=
  from_option Return (Raise ValueError) (int s).

(** [int(sys.argv[2]) if len(sys.argv) > 2 else 15] *)
Definition batch_size_argument (argv : list string) : result Z :=
  if decide (2 < length argv)%nat
  then s ← py_getitem argv 2; py_int s
  else Return 15.

End CommandLine.

(** ** The file as the interpreter reads it

    Python compiles a whole file before it runs its first statement, and
    a string literal in single or double quotes has to end on the line it
    starts on.  Line 37 of the source is four spaces, [print(] and a
    double quote; the text meant for the literal starts on line 38. *)

Definition double_quote : ascii := "034"%char.

Definition line_37 : string :=
  "    print(" +:+ String double_quote EmptyString.

(** Where a scan of a line stands: in code, in a comment, in a literal
    opened by one quote character, in a literal opened by three, or right
    after a backslash in either. *)
Inductive lexing : Type :=
| Code
| Comment
| Literal (quote : ascii)
| LiteralEscape (quote : ascii)
| Triple (quote : ascii)
| TripleEscape (quote : ascii).

Definition is_quote (c : ascii) : bool :=
  bool_decide (c = double_quote) || bool_decide (c = "'"%char).

Fixpoint scan (st : lexing) (s : string) : lexing :=
  match s with
  | EmptyString => st
  | String c s' =>
      match st with
      | Comment => Comment
      | Code =>
          if bool_decide (c = "#"%char) then Comment
          else if is_quote c then
            match s' with
            | String c1 (String c2 s'') =>
                if bool_decide (c1 = c) && bool_decide (c2 = c)
                then scan (Triple c) s''
                else scan (Literal c) s'
            | _ => scan (Literal c) s'
            end
          else scan Code s'
      | Literal q =>
          if bool_decide (c = "\"%char) then scan (LiteralEscape q) s'
          else if bool_decide (c = q) then scan Code s'
          else scan (Literal q) s'
      | LiteralEscape q => scan (Literal q) s'
      | Triple q =>
          if bool_decide (c = "\"%char) then scan (TripleEscape q) s'
          else if bool_decide (c = q) then
            match s' with
            | String c1 (String c2 s'') =>
                if bool_decide (c1 = q) && bool_decide (c2 = q)
                then scan Code s''
                else scan (Triple q) s'
            | _ => scan (Triple q) s'
            end
          else scan (Triple q) s'
      | TripleEscape q => scan (Triple q) s'
      end
  end.

(** A line that starts in code and ends inside a one-quote literal, with
    no backslash to continue it: the interpreter reports an unterminated
    string literal. *)
Definition unterminated_literal (line : string) : bool :=
  match scan Code line with
  | Literal _ => true
  | _ => false
  end.

Inductive compiled : Type :=
| Compiles
| SyntaxError_on (line : nat).

(** Compiling the file, as far as line 37 decides it. *)
Definition compile_file : compiled :=
  if unterminated_literal line_37 then SyntaxError_on 37 else Compiles.

(** The exit status of the interpreter after running statements: 0 when
    they run to their end, the code of [sys.exit], and 1 for any other
    exception, which is not caught. *)
Definition exit_status {A} (r : result A) : Z :=
  match r with
  | Return _ => 0
  | Raise (SystemExit code) => code
  | Raise _ => 1
  end.

Section Interpreter.

(** What the statements of the file do once it is compiled: from the
    command line and what standard output holds, the new standard output
    and how they end. *)
Variable statements : list string → list string → list string * result unit.

(** [python improve-batch-process.py ...]: a file that does not compile
    runs no statement; the error goes to the error stream and the exit
    status is 1. *)
Definition python (argv : list string) (stdout : list string) : list string * Z :=
  match compile_file with
  | SyntaxError_on _ => (stdout, 1)
  | Compiles =>
      let '(stdout', r) := statements argv stdout in (stdout', exit_status r)
  end.

End Interpreter.

(** * The arithmetic of [//] and [%] *)

Section Arithmetic.

Implicit Types a b q r : Z.

Lemma py_floordiv_nonzero a b : b ≠ 0 → py_floordiv a b = Return (a / b).
Proof. intros Hb. unfold py_floordiv. by case_decide. Qed.

Lemma py_mod_nonzero a b : b ≠ 0 → py_mod a b = Return (a mod b).
Proof. intros Hb. unfold py_mod. by case_decide. Qed.

Lemma py_floordiv_zero a : py_floordiv a 0 = Raise ZeroDivisionError.
Proof. reflexivity. Qed.

(** [//] is the floor of the rational quotient, whatever the signs. *)
Lemma floordiv_is_floor a b : a / b = floor_of_quotient a b.
Proof. unfold floor_of_quotient. apply Zdiv_Qdiv. Qed.

Lemma py_floordiv_floor a b :
  b ≠ 0 → py_floordiv a b = Return (floor_of_quotient a b).
Proof. intros Hb. by rewrite py_floordiv_nonzero, floordiv_is_floor. Qed.

(** The quotient and the remainder of Python recompose the dividend. *)
Lemma floordiv_mod_recompose a b : b ≠ 0 → a / b * b + a mod b = a.
Proof. intros Hb. pose proof (Z.div_mod a b Hb). lia. Qed.

Lemma mod_is_modulo a b : 0 < b → is_modulo a b (a mod b).
Proof.
  intros Hb. split; [by apply Z.mod_pos_bound|].
  exists (a / b). pose proof (floordiv_mod_recompose a b). lia.
Qed.

Lemma is_modulo_unique a b r r' : is_modulo a b r → is_modulo a b r' → r = r'.
Proof.
  intros [Hr [k Hk]] [Hr' [k' Hk']].
  assert (Hd : r' - r = (k - k') * b) by lia.
  assert (k - k' = 0) by nia. lia.
Qed.

End Arithmetic.

(** * Lines 31-32 *)

Lemma calculate_batching_nonzero total_sentences batch_size :
  batch_size ≠ 0 →
  calculate_batching total_sentences batch_size
  = Return (total_sentences / batch_size, total_sentences mod batch_size).
Proof.
  intros Hb. unfold calculate_batching.
  rewrite py_floordiv_nonzero, py_mod_nonzero by done. reflexivity.
Qed.

Lemma calculate_batching_zero total_sentences :
  calculate_batching total_sentences 0 = Raise ZeroDivisionError.
Proof. reflexivity. Qed.

(** C1: for every [sentenceCount >= 0] and [batchSize >= 1] the script
    computes a plan, and that plan satisfies
    [fullBatchCount * batchSize + remainder == sentenceCount] with
    [0 <= remainder < batchSize]. *)
Theorem plan_invariant (sentenceCount batchSize : Z) :
  0 ≤ sentenceCount → 1 ≤ batchSize →
  ∃ fullBatchCount remainder,
    calculate_batching sentenceCount batchSize = Return (fullBatchCount, remainder)
    ∧ fullBatchCount * batchSize + remainder = sentenceCount
    ∧ 0 ≤ remainder < batchSize.
Proof.
  intros _ Hb. eexists _, _. split; [apply calculate_batching_nonzero; lia|].
  split; [apply floordiv_mod_recompose; lia | apply Z.mod_pos_bound; lia].
Qed.

Lemma plan_invariant_witness :
  0 ≤ 100 ∧ 1 ≤ 15 ∧
  ∃ fullBatchCount remainder,
    calculate_batching 100 15 = Return (fullBatchCount, remainder)
    ∧ fullBatchCount * 15 + remainder = 100
    ∧ 0 ≤ remainder < 15.
Proof. split; [lia|]. split; [lia|]. apply (plan_invariant 100 15); lia. Defined.

(** What the script does with a batch size of zero, and with a negative
    one, at the inputs the specification names: C2 says both fail with
    [InvalidArgument]. *)
Lemma plan_nonpositive_batch_size_counterexample :
  ¬ fails_with (calculate_batching 10 0) InvalidArgument
  ∧ calculate_batching 10 0 = Raise ZeroDivisionError
  ∧ calculate_batching 10 (-3) = Return (-4, -2).
Proof. split; [discriminate|]. split; reflexivity. Qed.

(** C2, as the script has it: with [batchSize == 0] the computation
    fails for every [sentenceCount], with [ZeroDivisionError]; with
    [batchSize < 0] it does not fail, and returns the floor of the
    quotient and a remainder in [(batchSize, 0]] that recompose
    [sentenceCount]. *)
Theorem plan_nonpositive_batch_size (sentenceCount batchSize : Z) :
  batchSize ≤ 0 →
  (batchSize = 0
   ∧ fails_with (calculate_batching sentenceCount batchSize) ZeroDivisionError)
  ∨ (batchSize < 0
     ∧ ∃ fullBatchCount remainder,
         calculate_batching sentenceCount batchSize
         = Return (fullBatchCount, remainder)
         ∧ fullBatchCount = floor_of_quotient sentenceCount batchSize
         ∧ fullBatchCount * batchSize + remainder = sentenceCount
         ∧ batchSize < remainder ≤ 0).
Proof.
  intros Hb. destruct (decide (batchSize = 0)) as [->|Hne].
  - left. split; [done|]. apply calculate_batching_zero.
  - right. split; [lia|]. eexists _, _.
    split; [by apply calculate_batching_nonzero|].
    split; [apply floordiv_is_floor|].
    split; [by apply floordiv_mod_recompose | apply Z.mod_neg_bound; lia].
Qed.

Lemma plan_nonpositive_batch_size_witness :
  (0 ≤ 0 ∧ fails_with (calculate_batching 10 0) ZeroDivisionError)
  ∧ (-3 ≤ 0
     ∧ ∃ fullBatchCount remainder,
         calculate_batching 10 (-3) = Return (fullBatchCount, remainder)
         ∧ fullBatchCount = floor_of_quotient 10 (-3)
         ∧ fullBatchCount * -3 + remainder = 10
         ∧ -3 < remainder ≤ 0).
Proof.
  split.
  - split; [lia|].
    destruct (plan_nonpositive_batch_size 10 0) as [[_ H]|[H _]]; [lia | exact H | lia].
  - split; [lia|].
    destruct (plan_nonpositive_batch_size 10 (-3)) as [[H _]|[_ H]]; [lia | lia | exact H].
Defined.

(** What the script does with a negative sentence count: C3 says it
    fails with [InvalidArgument]. *)
Lemma plan_negative_sentence_count_counterexample :
  ¬ fails_with (calculate_batching (-1) 15) InvalidArgument
  ∧ calculate_batching (-1) 15 = Return (-1, 14).
Proof. split; [discriminate | reflexivity]. Qed.

(** C3, as the script has it: for every [batchSize >= 1] and every
    [sentenceCount < 0] the computation does not fail; it returns a
    negative [fullBatchCount], the floor of the quotient, and a remainder
    with [0 <= remainder < batchSize] that recompose [sentenceCount]. *)
Theorem plan_negative_sentence_count (sentenceCount batchSize : Z) :
  1 ≤ batchSize → sentenceCount < 0 →
  ∃ fullBatchCount remainder,
    calculate_batching sentenceCount batchSize = Return (fullBatchCount, remainder)
    ∧ fullBatchCount = floor_of_quotient sentenceCount batchSize
    ∧ fullBatchCount < 0
    ∧ fullBatchCount * batchSize + remainder = sentenceCount
    ∧ 0 ≤ remainder < batchSize.
Proof.
  intros Hb Hs. eexists _, _.
  split; [apply calculate_batching_nonzero; lia|].
  split; [apply floordiv_is_floor|].
  split; [apply Z.div_lt_upper_bound; lia|].
  split; [apply floordiv_mod_recompose; lia | apply Z.mod_pos_bound; lia].
Qed.

Lemma plan_negative_sentence_count_witness :
  1 ≤ 15 ∧ -1 < 0 ∧
  ∃ fullBatchCount remainder,
    calculate_batching (-1) 15 = Return (fullBatchCount, remainder)
    ∧ fullBatchCount = floor_of_quotient (-1) 15
    ∧ fullBatchCount < 0
    ∧ fullBatchCount * 15 + remainder = -1
    ∧ 0 ≤ remainder < 15.
Proof.
  split; [lia|]. split; [lia|]. apply (plan_negative_sentence_count (-1) 15); lia.
Defined.

(** C4: for every [sentenceCount >= 0] and [batchSize >= 1] the computed
    [fullBatchCount] is floor(sentenceCount / batchSize), a non-negative
    integer, and the computed remainder is [sentenceCount] modulo
    [batchSize]. *)
Theorem plan_floor_and_modulo (sentenceCount batchSize : Z) :
  0 ≤ sentenceCount → 1 ≤ batchSize →
  ∃ fullBatchCount remainder,
    calculate_batching sentenceCount batchSize = Return (fullBatchCount, remainder)
    ∧ fullBatchCount = floor_of_quotient sentenceCount batchSize
    ∧ 0 ≤ fullBatchCount
    ∧ is_modulo sentenceCount batchSize remainder
    ∧ remainder = sentenceCount mod batchSize.
Proof.
  intros Hs Hb. eexists _, _.
  split; [apply calculate_batching_nonzero; lia|].
  split; [apply floordiv_is_floor|].
  split; [apply Z.div_pos; lia|].
  split; [apply mod_is_modulo; lia | reflexivity].
Qed.

Lemma plan_floor_and_modulo_witness :
  0 ≤ 100 ∧ 1 ≤ 15 ∧
  ∃ fullBatchCount remainder,
    calculate_batching 100 15 = Return (fullBatchCount, remainder)
    ∧ fullBatchCount = floor_of_quotient 100 15
    ∧ 0 ≤ fullBatchCount
    ∧ is_modulo 100 15 remainder
    ∧ remainder = 100 mod 15.
Proof.
  split; [lia|]. split; [lia|]. apply (plan_floor_and_modulo 100 15); lia.
Defined.

(** C6: the four concrete plans of the specification. *)
Theorem plan_concrete_cases :
  calculate_batching 100 15 = Return (6, 10)
  ∧ calculate_batching 45 15 = Return (3, 0)
  ∧ calculate_batching 0 15 = Return (0, 0)
  ∧ calculate_batching 7 15 = Return (0, 7).
Proof. repeat split. Qed.

(** C9: the division and the modulo are not guarded.  The computation
    fails exactly when [batchSize == 0], for every [sentenceCount], and
    then with [ZeroDivisionError], which is not [InvalidArgument]; with
    [batchSize >= 1] it cannot fail. *)
Theorem plan_division_unguarded (sentenceCount batchSize : Z) :
  (∀ e, fails_with (calculate_batching sentenceCount batchSize) e
        ↔ batchSize = 0 ∧ e = ZeroDivisionError)
  ∧ (batchSize = 0 →
     fails_with (calculate_batching sentenceCount batchSize) ZeroDivisionError
     ∧ ¬ fails_with (calculate_batching sentenceCount batchSize) InvalidArgument)
  ∧ (1 ≤ batchSize →
     returns (calculate_batching sentenceCount batchSize)
     ∧ ∀ e, ¬ fails_with (calculate_batching sentenceCount batchSize) e).
Proof.
  unfold fails_with, returns.
  destruct (decide (batchSize = 0)) as [->|Hne].
  - rewrite calculate_batching_zero. split; [|split].
    + intros e. split; [intros [= <-]; done | intros [_ ->]; done].
    + intros _. split; [done | discriminate].
    + lia.
  - rewrite calculate_batching_nonzero by done. split; [|split].
    + intros e. split; [discriminate | intros [? _]; done].
    + done.
    + intros _. split; [by eexists | discriminate].
Qed.

Lemma plan_division_unguarded_witness :
  (0 = 0
   ∧ fails_with (calculate_batching 10 0) ZeroDivisionError
   ∧ ¬ fails_with (calculate_batching 10 0) InvalidArgument)
  ∧ (1 ≤ 15 ∧ returns (calculate_batching 10 15)).
Proof.
  split.
  - split; [reflexivity|].
    apply (proj1 (proj2 (plan_division_unguarded 10 0))). reflexivity.
  - split; [lia|].
    apply (proj2 (proj2 (plan_division_unguarded 10 15))). lia.
Defined.

(** C10: for every integer [sentenceCount], negative ones included, and
    every [batchSize >= 1] the computation returns, and its results
    satisfy [fullBatchCount * batchSize + remainder == sentenceCount]
    with [0 <= remainder < batchSize]; a sentence count of -1 with a
    batch size of 15 gives -1 full batches and a remainder of 14. *)
Theorem plan_any_sentence_count :
  (∀ sentenceCount batchSize : Z,
     1 ≤ batchSize →
     ∃ fullBatchCount remainder,
       calculate_batching sentenceCount batchSize
       = Return (fullBatchCount, remainder)
       ∧ fullBatchCount * batchSize + remainder = sentenceCount
       ∧ 0 ≤ remainder < batchSize)
  ∧ calculate_batching (-1) 15 = Return (-1, 14).
Proof.
  split; [|reflexivity]. intros sentenceCount batchSize Hb. eexists _, _.
  split; [apply calculate_batching_nonzero; lia|].
  split; [apply floordiv_mod_recompose; lia | apply Z.mod_pos_bound; lia].
Qed.

Lemma plan_any_sentence_count_witness :
  1 ≤ 15 ∧
  ∃ fullBatchCount remainder,
    calculate_batching (-1) 15 = Return (fullBatchCount, remainder)
    ∧ fullBatchCount * 15 + remainder = -1
    ∧ 0 ≤ remainder < 15.
Proof. split; [lia|]. apply (proj1 plan_any_sentence_count (-1) 15). lia. Defined.

(** * Lines 31-32 on the local variables *)

Section Locals.

Implicit Types locals : gmap string Z.

Lemma line_31_run locals total_sentences batch_size :
  locals !! "total_sentences" = Some total_sentences →
  locals !! "batch_size" = Some batch_size →
  line_31 locals
  = match py_floordiv total_sentences batch_size with
    | Return q => (<["full_batches" := q]> locals, Return ())
    | Raise e => (locals, Raise e)
    end.
Proof.
  intros Ht Hb. unfold line_31, assign, load_name. rewrite Ht, Hb. cbn.
  by destruct (py_floordiv total_sentences batch_size).
Qed.

Lemma line_32_run locals total_sentences batch_size :
  locals !! "total_sentences" = Some total_sentences →
  locals !! "batch_size" = Some batch_size →
  line_32 locals
  = match py_mod total_sentences batch_size with
    | Return r => (<["remainder" := r]> locals, Return ())
    | Raise e => (locals, Raise e)
    end.
Proof.
  intros Ht Hb. unfold line_32, assign, load_name. rewrite Ht, Hb. cbn.
  by destruct (py_mod total_sentences batch_size).
Qed.

(** The two lines bind the plan of [calculate_batching], or raise what it
    raises and bind nothing. *)
Lemma lines_31_32_run locals total_sentences batch_size :
  locals !! "total_sentences" = Some total_sentences →
  locals !! "batch_size" = Some batch_size →
  lines_31_32 locals
  = match calculate_batching total_sentences batch_size with
    | Return (q, r) =>
        (<["remainder" := r]> (<["full_batches" := q]> locals), Return ())
    | Raise e => (locals, Raise e)
    end.
Proof.
  intros Ht Hb. unfold lines_31_32, then_.
  rewrite (line_31_run locals total_sentences batch_size Ht Hb).
  destruct (decide (batch_size = 0)) as [->|Hne].
  - by rewrite calculate_batching_zero, py_floordiv_zero.
  - rewrite calculate_batching_nonzero, py_floordiv_nonzero by done.
    rewrite (line_32_run _ total_sentences batch_size).
    + by rewrite py_mod_nonzero.
    + by rewrite lookup_insert_ne.
    + by rewrite lookup_insert_ne.
Qed.

(** Binding the two results again, to the same values, changes nothing. *)
Lemma rebind_results locals q r :
  <["remainder" := r]> (<["full_batches" := q]>
    (<["remainder" := r]> (<["full_batches" := q]> locals)))
  = <["remainder" := r]> (<["full_batches" := q]> locals).
Proof.
  rewrite (insert_insert_ne _ "full_batches" "remainder") by done.
  by rewrite insert_insert_eq, insert_insert_eq.
Qed.

End Locals.

(** C5: the computation of the plan is deterministic and idempotent, and
    has no effect on any state but the two names it binds.  Run on any
    two sets of local variables that hold the same [sentenceCount] and
    [batchSize], lines 31-32 end the same way, and when they return they
    have bound [full_batches] and [remainder] to the same plan, the one
    of [calculate_batching]; every other variable keeps its value or
    stays unbound; and running the two lines again where they stopped
    gives the same outcome and changes nothing. *)
Theorem plan_deterministic_idempotent (locals1 locals2 : gmap string Z)
    (sentenceCount batchSize : Z) :
  locals1 !! "total_sentences" = Some sentenceCount →
  locals1 !! "batch_size" = Some batchSize →
  locals2 !! "total_sentences" = Some sentenceCount →
  locals2 !! "batch_size" = Some batchSize →
  (lines_31_32 locals1).2 = (lines_31_32 locals2).2
  ∧ (lines_31_32 locals1).2
    = match calculate_batching sentenceCount batchSize with
      | Return _ => Return ()
      | Raise e => Raise e
      end
  ∧ (∀ fullBatchCount remainder,
       calculate_batching sentenceCount batchSize
       = Return (fullBatchCount, remainder) →
       (lines_31_32 locals1).1 !! "full_batches" = Some fullBatchCount
       ∧ (lines_31_32 locals1).1 !! "remainder" = Some remainder
       ∧ (lines_31_32 locals2).1 !! "full_batches" = Some fullBatchCount
       ∧ (lines_31_32 locals2).1 !! "remainder" = Some remainder)
  ∧ (∀ x, x ≠ "full_batches" → x ≠ "remainder" →
          (lines_31_32 locals1).1 !! x = locals1 !! x)
  ∧ (∀ e, (lines_31_32 locals1).2 = Raise e → (lines_31_32 locals1).1 = locals1)
  ∧ lines_31_32 (lines_31_32 locals1).1 = lines_31_32 locals1.
Proof.
  intros Ht1 Hb1 Ht2 Hb2.
  pose proof (lines_31_32_run locals1 sentenceCount batchSize Ht1 Hb1) as H1.
  pose proof (lines_31_32_run locals2 sentenceCount batchSize Ht2 Hb2) as H2.
  destruct (calculate_batching sentenceCount batchSize) as [[q r]|e] eqn:Hc.
  - rewrite H1, H2. cbn [fst snd].
    split; [done|]. split; [done|]. split; [|split; [|split]].
    + intros ?? [= <- <-].
      rewrite !lookup_insert_eq, !(lookup_insert_ne _ "remainder") by done.
      by rewrite !lookup_insert_eq.
    + intros x Hf Hr. by rewrite !lookup_insert_ne.
    + discriminate.
    + rewrite (lines_31_32_run _ sentenceCount batchSize), Hc.
      * by rewrite rebind_results.
      * by rewrite !lookup_insert_ne.
      * by rewrite !lookup_insert_ne.
  - rewrite H1, H2. cbn [fst snd].
    split; [done|]. split; [done|]. split; [discriminate|].
    split; [done|]. split; [done|]. by rewrite H1.
Qed.

Lemma plan_deterministic_idempotent_witness :
  let locals1 : gmap string Z :=
    {[ "total_sentences" := 100; "batch_size" := 15 ]} in
  let locals2 : gmap string Z :=
    {[ "total_sentences" := 100; "batch_size" := 15;
       "full_batches" := 1; "remainder" := 2; "other" := 3 ]} in
  (locals1 !! "total_sentences" = Some 100 ∧ locals1 !! "batch_size" = Some 15
   ∧ locals2 !! "total_sentences" = Some 100 ∧ locals2 !! "batch_size" = Some 15)
  ∧ (lines_31_32 locals1).2 = (lines_31_32 locals2).2
  ∧ lines_31_32 (lines_31_32 locals1).1 = lines_31_32 locals1.
Proof.
  intros locals1 locals2.
  assert (Ht1 : locals1 !! "total_sentences" = Some 100) by reflexivity.
  assert (Hb1 : locals1 !! "batch_size" = Some 15) by reflexivity.
  assert (Ht2 : locals2 !! "total_sentences" = Some 100) by reflexivity.
  assert (Hb2 : locals2 !! "batch_size" = Some 15) by reflexivity.
  split; [by repeat split|].
  destruct (plan_deterministic_idempotent locals1 locals2 100 15 Ht1 Hb1 Ht2 Hb2)
    as (Hsame & _ & _ & _ & _ & Hagain).
  split; [exact Hsame | exact Hagain].
Defined.

(** * The file as shipped *)

(** Line 37 ends inside the literal it opens; a line of the same shape
    with its literal closed does not. *)
Example line_37_unterminated : unterminated_literal line_37 = true.
Proof. reflexivity. Qed.

Example closed_literal_terminated :
  unterminated_literal
    ("    print(" +:+ String double_quote "  • Better quality control"
     +:+ String double_quote ")")
  = false.
Proof. reflexivity. Qed.

Lemma compile_file_fails : compile_file = SyntaxError_on 37.
Proof. reflexivity. Qed.

(** C7, on the file as shipped: whatever its statements would do, every
    run stops at compilation with exit status 1 and nothing printed.
    That is the non-zero status of the claim for a run without a document
    reference, but a run with one, on a good chapter file, ends with
    status 1 as well, not 0. *)
Theorem shipped_script_exit_code
    (statements : list string → list string → list string * result unit)
    (argv : list string) (stdout : list string) :
  python statements argv stdout = (stdout, 1)
  ∧ (python statements ["improve-batch-process.py"; "chapter.json"] stdout).2 ≠ 0.
Proof. split; [reflexivity | discriminate]. Qed.

(** C8, on the file as shipped: with a document reference alone, and with
    a batch size of 20 after it, the run is the same whatever the
    statements of the file would do, the call of the workflow among them:
    none is run, so no batch size, 15 or 20, is passed to anything. *)
Theorem shipped_script_runs_no_statement
    (statements statements' : list string → list string → list string * result unit)
    (stdout : list string) :
  python statements ["improve-batch-process.py"; "chapter.json"] stdout
  = python statements' ["improve-batch-process.py"; "chapter.json"] stdout
  ∧ python statements ["improve-batch-process.py"; "chapter.json"; "20"] stdout
    = python statements' ["improve-batch-process.py"; "chapter.json"; "20"] stdout
  ∧ (python statements ["improve-batch-process.py"; "chapter.json"] stdout).1 = stdout
  ∧ (python statements ["improve-batch-process.py"; "chapter.json"; "20"] stdout).1
    = stdout.
Proof. repeat split. Qed.

(** * More on lines 31-32: the shape of the plan *)

(** X1.  The plan is the only way to split the sentences: whenever [q] batches
    of [batch_size] and [r] more sentences make up [total_sentences], with
    [r] between zero and the batch size (on the side of its sign), lines
    31-32 compute exactly [q] and [r]. *)
Theorem plan_unique (total_sentences batch_size q r : Z) :
  q * batch_size + r = total_sentences →
  0 ≤ r < batch_size ∨ batch_size < r ≤ 0 →
  calculate_batching total_sentences batch_size = Return (q, r).
Proof.
  intros Hs Hr. rewrite calculate_batching_nonzero by lia.
  assert (Hs' : total_sentences = batch_size * q + r) by lia.
  by rewrite <- (Z.div_unique _ _ q r Hr Hs'), <- (Z.mod_unique _ _ q r Hr Hs').
Qed.

Lemma plan_unique_witness :
  6 * 15 + 10 = 100 ∧ (0 ≤ 10 < 15 ∨ 15 < 10 ≤ 0)
  ∧ calculate_batching 100 15 = Return (6, 10).
Proof.
  assert (H1 : 6 * 15 + 10 = 100) by reflexivity.
  assert (H2 : 0 ≤ 10 < 15 ∨ 15 < 10 ≤ 0) by (left; lia).
  split; [exact H1|]. split; [exact H2|]. exact (plan_unique 100 15 6 10 H1 H2).
Defined.

(** X2.  The final batch is empty exactly when the batch size divides the
    sentence count, and then the full batches alone make up the count. *)
Theorem plan_remainder_zero_iff_divides (total_sentences batch_size : Z) :
  batch_size ≠ 0 →
  ((∃ q, calculate_batching total_sentences batch_size = Return (q, 0))
   ↔ (batch_size | total_sentences))
  ∧ (∀ q, calculate_batching total_sentences batch_size = Return (q, 0) →
          q * batch_size = total_sentences).
Proof.
  intros Hb. rewrite calculate_batching_nonzero by done. split.
  - rewrite <- (Z.mod_divide _ _ Hb). split.
    + by intros [q [= _ Hr]].
    + intros ->. by eexists.
  - intros q [= <- Hr]. pose proof (floordiv_mod_recompose total_sentences batch_size Hb).
    lia.
Qed.

Lemma plan_remainder_zero_iff_divides_witness :
  15 ≠ 0
  ∧ ((∃ q, calculate_batching 45 15 = Return (q, 0)) ↔ (15 | 45))
  ∧ (∀ q, calculate_batching 45 15 = Return (q, 0) → q * 15 = 45).
Proof.
  assert (H : 15 ≠ 0) by lia.
  split; [exact H|]. exact (plan_remainder_zero_iff_divides 45 15 H).
Defined.

(** X3.  With a positive batch size and a sentence count that is not negative,
    there is no full batch exactly when the chapter has fewer sentences
    than a batch holds, and then they all go to the final batch. *)
Theorem plan_no_full_batch (total_sentences batch_size : Z) :
  1 ≤ batch_size → 0 ≤ total_sentences →
  ((∃ r, calculate_batching total_sentences batch_size = Return (0, r))
   ↔ total_sentences < batch_size)
  ∧ (total_sentences < batch_size →
     calculate_batching total_sentences batch_size = Return (0, total_sentences)).
Proof.
  intros Hb Hs. rewrite calculate_batching_nonzero by lia. split.
  - split.
    + intros [r [= Hq _]]. apply Z.div_small_iff in Hq; lia.
    + intros Hlt. eexists. by rewrite Z.div_small by lia.
  - intros Hlt. by rewrite Z.div_small, Z.mod_small by lia.
Qed.

Lemma plan_no_full_batch_witness :
  1 ≤ 15 ∧ 0 ≤ 7 ∧ 7 < 15 ∧ calculate_batching 7 15 = Return (0, 7).
Proof.
  assert (H1 : 1 ≤ 15) by lia. assert (H2 : 0 ≤ 7) by lia.
  assert (H3 : 7 < 15) by lia.
  split; [exact H1|]. split; [exact H2|]. split; [exact H3|].
  exact (proj2 (plan_no_full_batch 7 15 H1 H2) H3).
Defined.

(** X4.  Sentences added or taken away by whole batches change the number of
    full batches by as many and leave the final batch as it is. *)
Theorem plan_shift_by_batches (total_sentences batch_size q r k : Z) :
  calculate_batching total_sentences batch_size = Return (q, r) →
  calculate_batching (total_sentences + k * batch_size) batch_size
  = Return (q + k, r).
Proof.
  intros Hp. destruct (decide (batch_size = 0)) as [->|Hb].
  - by rewrite calculate_batching_zero in Hp.
  - rewrite calculate_batching_nonzero in Hp |- * by done.
    injection Hp as <- <-. by rewrite Z.div_add, Z.mod_add by done.
Qed.

Lemma plan_shift_by_batches_witness :
  calculate_batching 100 15 = Return (6, 10)
  ∧ calculate_batching (100 + 2 * 15) 15 = Return (6 + 2, 10).
Proof.
  assert (H : calculate_batching 100 15 = Return (6, 10)) by reflexivity.
  split; [exact H|]. exact (plan_shift_by_batches 100 15 6 10 2 H).
Defined.

(** X5.  With a positive batch size a longer chapter never has fewer full
    batches. *)
Theorem plan_monotone (total_sentences total_sentences' batch_size q r q' r' : Z) :
  1 ≤ batch_size → total_sentences ≤ total_sentences' →
  calculate_batching total_sentences batch_size = Return (q, r) →
  calculate_batching total_sentences' batch_size = Return (q', r') →
  q ≤ q'.
Proof.
  intros Hb Hle. rewrite !calculate_batching_nonzero by lia.
  intros [= <- _] [= <- _]. apply Z.div_le_mono; lia.
Qed.

Lemma plan_monotone_witness :
  1 ≤ 15 ∧ 45 ≤ 100
  ∧ calculate_batching 45 15 = Return (3, 0)
  ∧ calculate_batching 100 15 = Return (6, 10)
  ∧ 3 ≤ 6.
Proof.
  assert (H1 : 1 ≤ 15) by lia. assert (H2 : 45 ≤ 100) by lia.
  assert (H3 : calculate_batching 45 15 = Return (3, 0)) by reflexivity.
  assert (H4 : calculate_batching 100 15 = Return (6, 10)) by reflexivity.
  split; [exact H1|]. split; [exact H2|]. split; [exact H3|]. split; [exact H4|].
  exact (plan_monotone 45 100 15 3 0 6 10 H1 H2 H3 H4).
Defined.

(** X6.  Changing the sign of both the sentence count and the batch size keeps
    the number of full batches and changes the sign of the remainder. *)
Theorem plan_opposite_signs (total_sentences batch_size q r : Z) :
  calculate_batching total_sentences batch_size = Return (q, r) →
  calculate_batching (- total_sentences) (- batch_size) = Return (q, - r).
Proof.
  intros Hp. destruct (decide (batch_size = 0)) as [->|Hb].
  - by rewrite calculate_batching_zero in Hp.
  - rewrite calculate_batching_nonzero in Hp by done. injection Hp as <- <-.
    rewrite calculate_batching_nonzero by lia.
    by rewrite Z.div_opp_opp, Z.mod_opp_opp by done.
Qed.

Lemma plan_opposite_signs_witness :
  calculate_batching 100 15 = Return (6, 10)
  ∧ calculate_batching (- 100) (- 15) = Return (6, - 10).
Proof.
  assert (H : calculate_batching 100 15 = Return (6, 10)) by reflexivity.
  split; [exact H|]. exact (plan_opposite_signs 100 15 6 10 H).
Defined.

(** * Line 49: the batch size argument *)

(** X7.  Line 49 yields an integer or raises [ValueError], nothing else:
    15 when [sys.argv] has no third entry, the integer [int] reads from
    the third entry when it has one, and [ValueError] exactly when [int]
    rejects that entry.  The subscript [sys.argv[2]] is never out of
    range. *)
Theorem batch_size_argument_cases (int : string → option Z) (argv : list string) :
  (∀ n, batch_size_argument int argv = Return n
        ↔ (argv !! 2%nat = None ∧ n = 15)
          ∨ (∃ s, argv !! 2%nat = Some s ∧ int s = Some n))
  ∧ (∀ e, batch_size_argument int argv = Raise e
          ↔ e = ValueError ∧ ∃ s, argv !! 2%nat = Some s ∧ int s = None).
Proof.
  unfold batch_size_argument, py_getitem, py_int.
  destruct (argv !! 2%nat) as [s|] eqn:H2.
  - pose proof (lookup_lt_Some _ _ _ H2). case_decide; [|lia]. cbn.
    destruct (int s) as [m|] eqn:Hi; cbn; split; intros x; split.
    + intros [= <-]. right. by exists s.
    + intros [[[=] _]|(s' & [= <-] & Hm)]. congruence.
    + discriminate.
    + intros (_ & s' & [= <-] & Hm). congruence.
    + discriminate.
    + intros [[[=] _]|(s' & [= <-] & Hm)]. congruence.
    + intros [= <-]. split; [done|]. by exists s.
    + intros [-> _]. done.
  - apply lookup_ge_None in H2. case_decide; [lia|]. split; intros x; split.
    + intros [= <-]. by left.
    + intros [[_ ->]|(s' & [=] & _)]. done.
    + discriminate.
    + intros (_ & s' & [=] & _).
Qed.

(** X8.  Line 49 looks at the third entry of [sys.argv] and at nothing
    else: the program name, the document reference and any entry after
    the batch size make no difference to it. *)
Theorem batch_size_argument_third_entry (int : string → option Z)
    (a0 a1 b0 b1 s : string) (rest : list string) :
  batch_size_argument int (a0 :: a1 :: s :: rest)
  = batch_size_argument int [b0; b1; s]
  ∧ batch_size_argument int [a0; a1] = batch_size_argument int []
  ∧ batch_size_argument int [a0] = batch_size_argument int [].
Proof.
  unfold batch_size_argument. split; [|by split].
  cbn [length]. do 2 (case_decide; [|lia]). reflexivity.
Qed.
